(** * cmod_functions.plasma_parameters

    A shallow embedding of [src/cmod_functions/plasma_parameters.py] and the
    properties of its accessors and formulas.

    - Samples and scalars are IEEE 754 binary64 numbers (Rocq's primitive
      floats), as Python's [float] and numpy's [float64] are.
    - A numpy array of samples is a [list float].
    - A Python exception is a [Raise] in the [result] monad.
    - The module's global namespace is a finite map from names to objects:
      a function body looks its free names up there when it is called.
    - The MDSplus server is a parameter of the accessors. *)

From Stdlib Require Import List ZArith String Bool Lia.
From Stdlib Require Import Floats.PrimFloat Numbers.Cyclic.Int63.Uint63.
From Stdlib Require Floats.SpecFloat Floats.FloatOps Floats.FloatAxioms.
From stdpp Require Import base option list gmap strings.
Import ListNotations.

#[local] Set Warnings "-inexact-float".
#[local] Open Scope string_scope.

(** ** Python: exceptions, objects and name lookup *)

Module Py.

Inductive exn : Type :=
| NameError (name : string)
| AttributeError
| TypeError
| ValueError
| IndexError
| ZeroDivisionError
| MdsException.

Inductive result (A : Type) : Type :=
| Ok (a : A)
| Raise (e : exn).
Arguments Ok {A} a.
Arguments Raise {A} e.

#[export] Instance result_ret : MRet result := fun _ a => Ok a.
#[export] Instance result_bind : MBind result := fun _ _ f r =>
  match r with
  | Ok a => f a
  | Raise e => Raise e
  end.

(** What a global name can be bound to in this program. *)
Inductive pyobj : Type :=
| PyModule (name : string)
| PyFunction (name : string).

(** [import module as name] and [def name(...)] at module level. *)
Definition import_as (module name : string) (G : gmap string pyobj)
  : gmap string pyobj :=
  <[name := PyModule module]> G.

Definition def (name : string) (G : gmap string pyobj) : gmap string pyobj :=
  <[name := PyFunction name]> G.

(** Reading a free name inside a function body. No name of this program is
    a builtin, so the lookup ends at the module's globals. *)
Definition load_global (G : gmap string pyobj) (name : string) : result pyobj :=
  match G !! name with
  | Some o => Ok o
  | None => Raise (NameError name)
  end.

(** [name.attr] where the program expects [name] to be bound to the module
    [module]. *)
Definition expect_module (module : string) (o : pyobj) : result unit :=
  match o with
  | PyModule m => if String.eqb m module then Ok tt else Raise AttributeError
  | PyFunction _ => Raise AttributeError
  end.

(** [x is None] *)
Definition is_None {A : Type} (x : option A) : bool :=
  match x with
  | None => true
  | Some _ => false
  end.

End Py.
Import Py.

(** ** numpy: scalars and one-dimensional float arrays *)

Module np.

(** A scalar is a Python [float] or a numpy [float64]; both hold a binary64
    value. They differ in division by zero. *)
Inductive scalar : Type :=
| PyFloat (v : float)
| Float64 (v : float).

Definition value (s : scalar) : float :=
  match s with
  | PyFloat v => v
  | Float64 v => v
  end.

(** [a * b]: a Python float only when both operands are. *)
Definition mul (a b : scalar) : scalar :=
  match a, b with
  | PyFloat x, PyFloat y => PyFloat (x * y)
  | _, _ => Float64 (value a * value b)
  end.

(** [a / b]: Python floats raise on a zero divisor; with a numpy operand the
    quotient is the IEEE one (an infinity or NaN for a zero divisor). *)
Definition truediv (a b : scalar) : result scalar :=
  match a, b with
  | PyFloat x, PyFloat y =>
      if (y =? 0)%float then Raise ZeroDivisionError else Ok (PyFloat (x / y))
  | _, _ => Ok (Float64 (value a / value b))
  end.

(** [np.pi], a Python float: 3.141592653589793 *)
Definition pi : scalar := PyFloat 0x1.921fb54442d18p+1%float.

(** Element [x] of a float array compared with a bound that may be [None]:
    Python has no order between a float and [None]. *)
Definition elem_lt (x : float) (bound : option scalar) : result bool :=
  match bound with
  | Some b => Ok (x <? value b)%float
  | None => Raise TypeError
  end.

Definition elem_gt (x : float) (bound : option scalar) : result bool :=
  match bound with
  | Some b => Ok (value b <? x)%float
  | None => Raise TypeError
  end.

(** [arr < bound] and [arr > bound], element by element. *)
Fixpoint less (arr : list float) (bound : option scalar) : result (list bool) :=
  match arr with
  | [] => Ok []
  | x :: rest =>
      c ← elem_lt x bound;
      cs ← less rest bound;
      Ok (c :: cs)
  end.

Fixpoint greater (arr : list float) (bound : option scalar) : result (list bool) :=
  match arr with
  | [] => Ok []
  | x :: rest =>
      c ← elem_gt x bound;
      cs ← greater rest bound;
      Ok (c :: cs)
  end.

(** [m1 & m2] on boolean arrays of one shape (the only use in this program
    combines two masks of the same array). *)
Fixpoint bitwise_and (m1 m2 : list bool) : result (list bool) :=
  match m1, m2 with
  | [], [] => Ok []
  | b1 :: r1, b2 :: r2 =>
      r ← bitwise_and r1 r2;
      Ok ((b1 && b2) :: r)
  | _, _ => Raise ValueError
  end.

(** The elements of [arr] where [mask] is true, for a mask of the length of
    the array. *)
Fixpoint take_where (arr : list float) (mask : list bool) : result (list float) :=
  match arr, mask with
  | [], [] => Ok []
  | x :: rest, b :: bs =>
      r ← take_where rest bs;
      Ok (if b then x :: r else r)
  | _, _ => Raise IndexError
  end.

(** [arr[mask]]: an empty mask selects nothing from any array; any other mask
    must have the length of the array. *)
Definition getitem_mask (arr : list float) (mask : list bool) : result (list float) :=
  match mask with
  | [] => Ok []
  | _ :: _ => take_where arr mask
  end.

(** numpy's pairwise summation of a float64 array ([DOUBLE_pairwise_sum]).

    Fewer than 8 items are added one by one onto -0.0. Up to 128 items are
    added in 8 accumulators [r[0..7]], item [i] onto [r[i mod 8]] as long as 8
    more items are there; the accumulators are combined as
    [((r0+r1)+(r2+r3))+((r4+r5)+(r6+r7))] and the items left over are added
    one by one. *)
Fixpoint accumulate (r : list float) (a : list float) : list float * list float :=
  match a with
  | x0 :: x1 :: x2 :: x3 :: x4 :: x5 :: x6 :: x7 :: rest =>
      accumulate (zip_with PrimFloat.add r [x0; x1; x2; x3; x4; x5; x6; x7]) rest
  | _ => (r, a)
  end.

Definition combine_accumulators (r : list float) : float :=
  match r with
  | [r0; r1; r2; r3; r4; r5; r6; r7] =>
      (((r0 + r1) + (r2 + r3)) + ((r4 + r5) + (r6 + r7)))%float
  | _ => 0%float
  end.

Definition block_sum (a : list float) : float :=
  match a with
  | x0 :: x1 :: x2 :: x3 :: x4 :: x5 :: x6 :: x7 :: rest =>
      let '(r, left_over) := accumulate [x0; x1; x2; x3; x4; x5; x6; x7] rest in
      fold_left PrimFloat.add left_over (combine_accumulators r)
  | _ => fold_left PrimFloat.add a (-0)%float
  end.

Definition PW_BLOCKSIZE : nat := 128.

(** Where an array of more than 128 items is cut: half its length, rounded
    down to a multiple of 8. *)
Definition half_split (n : nat) : nat := n / 2 - (n / 2) mod 8.

(** More than 128 items are cut in two and the two sums added. Each part is
    shorter than the whole, so a depth of the length of the array is never
    used up (lemma [pairwise_sum_unfold]). *)
Fixpoint pairwise_sum_depth (depth : nat) (a : list float) : float :=
  match depth with
  | O => block_sum a
  | S d =>
      if (PW_BLOCKSIZE <? length a)%nat then
        let n2 := half_split (length a) in
        (pairwise_sum_depth d (firstn n2 a) + pairwise_sum_depth d (skipn n2 a))%float
      else block_sum a
  end.

Definition pairwise_sum (a : list float) : float :=
  pairwise_sum_depth (length a) a.

(** [arr.sum()], as [np.add.reduce] computes it: the pairwise sum of the
    items added onto the identity 0.0. *)
Definition sum (arr : list float) : float :=
  (0 + pairwise_sum arr)%float.

(** The item count as a float. *)
Definition count (arr : list float) : float :=
  PrimFloat.of_uint63 (Uint63.of_Z (Z.of_nat (length arr))).

(** [arr.mean()]: the sum over the count, a [float64]; 0.0/0 = NaN for an
    empty array (numpy warns and returns it). *)
Definition mean (arr : list float) : scalar :=
  Float64 (sum arr / count arr).

(** [np.minimum] and [np.maximum] of the running result [a] and the next item
    [b]: a NaN wins; of two equal items (the two zeros) the later one is
    kept. Only the sign of a zero result depends on that, and no comparison
    sees it. *)
Definition minimum (a b : float) : float :=
  if is_nan a then a else if is_nan b then b
  else if (a <? b)%float then a else b.

Definition maximum (a b : float) : float :=
  if is_nan a then a else if is_nan b then b
  else if (b <? a)%float then a else b.

(** [np.amin(arr)] and [np.amax(arr)]; an empty array has neither. *)
Definition amin (arr : list float) : result scalar :=
  match arr with
  | [] => Raise ValueError
  | x :: rest => Ok (Float64 (fold_left minimum rest x))
  end.

Definition amax (arr : list float) : result scalar :=
  match arr with
  | [] => Raise ValueError
  | x :: rest => Ok (Float64 (fold_left maximum rest x))
  end.

(** [-arr] *)
Definition negative (arr : list float) : list float :=
  map PrimFloat.opp arr.

End np.

(** ** MDSplus: the remote tree database

    The client library and the server are outside this repository. The
    accessors use three calls: opening a connection to a named host, opening
    a tree for a shot, and evaluating an expression to an array. What the
    server answers is a parameter. *)

Module MDSplus.

Record Server : Type := {
  (** the host accepts a connection *)
  accepts : string -> bool;
  (** the tree exists for the shot *)
  has_tree : string -> Z -> bool;
  (** the array an expression evaluates to in the tree of a shot, if any *)
  evaluate : string -> Z -> string -> option (list float)
}.

(** A connection remembers the tree opened on it. *)
Record connection : Type := {
  host : string;
  tree : option (string * Z)
}.

(** [mds.Connection(hostname)] *)
Definition Connection (net : Server) (hostname : string) : result connection :=
  if accepts net hostname
  then Ok {| host := hostname; tree := None |}
  else Raise MdsException.

(** [c.openTree(name, shot)]: updates the connection *)
Definition openTree (net : Server) (c : connection) (name : string) (shot : Z)
  : result connection :=
  if has_tree net name shot
  then Ok {| host := host c; tree := Some (name, shot) |}
  else Raise MdsException.

(** [c.get(expression).data()] *)
Definition get (net : Server) (c : connection) (expression : string)
  : result (list float) :=
  match tree c with
  | Some (name, shot) =>
      match evaluate net name shot expression with
      | Some arr => Ok arr
      | None => Raise MdsException
      end
  | None => Raise MdsException
  end.

End MDSplus.

(** ** The module [plasma_parameters] *)

Module plasma_parameters.
Import np.

(** The module-level statements in source order: one import, then the
    seven function definitions. *)
Definition module_statements : list (gmap string pyobj -> gmap string pyobj) :=
  [ import_as "MDSplus" "mds";
    def "get_line_integrated_density";
    def "get_line_averaged_density";
    def "get_plasma_current";
    def "get_toroidal_magnetic_field";
    def "average_plasma_parameter";
    def "greenwald_density_limit";
    def "greenwald_fraction" ].

(** The module's globals once it has been imported. *)
Definition module_globals : gmap string pyobj :=
  fold_left (fun G statement => statement G) module_statements ∅.

(** The same module with [import numpy as np] added: what the function
    bodies expect to run in. *)
Definition globals_with_numpy : gmap string pyobj :=
  import_as "numpy" "np" module_globals.

(** [f"dim_of({dataname})"] *)
Definition dim_of (dataname : string) : string :=
  "dim_of(" +:+ dataname +:+ ")".

Section Functions.
(** The globals the bodies run in, and the network they reach. *)
Variable G : gmap string pyobj.
Variable net : MDSplus.Server.

Definition get_line_integrated_density (shot_number : Z)
  : result (list float * list float) :=
  mds ← load_global G "mds";
  expect_module "MDSplus" mds;;
  c ← MDSplus.Connection net "alcdata";
  c ← MDSplus.openTree net c "electrons" shot_number;
  let line_integrated_density_dataname := "\ELECTRONS::TOP.TCI.RESULTS.NL_04" in
  line_integrated_density ← MDSplus.get net c line_integrated_density_dataname;
  line_integrated_density_time ←
    MDSplus.get net c (dim_of line_integrated_density_dataname);
  Ok (line_integrated_density_time, line_integrated_density).

Definition get_line_averaged_density (shot_number : Z)
  : result (list float * list float) :=
  mds ← load_global G "mds";
  expect_module "MDSplus" mds;;
  c ← MDSplus.Connection net "alcdata";
  c ← MDSplus.openTree net c "electrons" shot_number;
  let line_averaged_density_dataname :=
    "\ELECTRONS::TOP.TCI.RESULTS.INVERSION.NEBAR_EFIT" in
  line_averaged_density ← MDSplus.get net c line_averaged_density_dataname;
  line_averaged_density_time ←
    MDSplus.get net c (dim_of line_averaged_density_dataname);
  Ok (line_averaged_density_time, line_averaged_density).

Definition get_plasma_current (shot_number : Z)
  : result (list float * list float) :=
  mds ← load_global G "mds";
  expect_module "MDSplus" mds;;
  c ← MDSplus.Connection net "alcdata";
  c ← MDSplus.openTree net c "magnetics" shot_number;
  let plasma_current_dataname := "\MAGNETICS::IP/1000" in
  plasma_current ← MDSplus.get net c plasma_current_dataname;
  plasma_current_time ← MDSplus.get net c (dim_of plasma_current_dataname);
  Ok (plasma_current_time, plasma_current).

Definition get_toroidal_magnetic_field (shot_number : Z)
  : result (list float * list float) :=
  mds ← load_global G "mds";
  expect_module "MDSplus" mds;;
  c ← MDSplus.Connection net "alcdata";
  c ← MDSplus.openTree net c "magnetics" shot_number;
  let toroidal_magnetic_field_dataname := "\MAGNETICS::BTOR" in
  raw ← MDSplus.get net c toroidal_magnetic_field_dataname;
  let toroidal_magnetic_field := negative raw in
  toroidal_magnetic_field_time ←
    MDSplus.get net c (dim_of toroidal_magnetic_field_dataname);
  Ok (toroidal_magnetic_field_time, toroidal_magnetic_field).

(** Lines 124-125 of [average_plasma_parameter]: the bounds after the
    both-[None] test. *)
Definition window_bounds (variable_time : list float)
    (time_start time_end : option scalar)
  : result (option scalar * option scalar) :=
  if is_None time_start && is_None time_end then
    numpy ← load_global G "np";
    expect_module "numpy" numpy;;
    lo ← amin variable_time;
    numpy ← load_global G "np";
    expect_module "numpy" numpy;;
    hi ← amax variable_time;
    Ok (Some lo, Some hi)
  else Ok (time_start, time_end).

(** Lines 127-131: the mask of the window, the selection, its mean. *)
Definition window_mean (variable_data variable_time : list float)
    (time_start time_end : option scalar) : result scalar :=
  before_end ← less variable_time time_end;
  after_start ← greater variable_time time_start;
  time_interval ← bitwise_and before_end after_start;
  variable_range ← getitem_mask variable_data time_interval;
  let variable_mean := mean variable_range in
  Ok variable_mean.

Definition average_plasma_parameter (variable_data variable_time : list float)
    (time_start time_end : option scalar) : result scalar :=
  '(time_start, time_end) ← window_bounds variable_time time_start time_end;
  window_mean variable_data variable_time time_start time_end.

(** [minor_radius] is [None] when the caller leaves it out. *)
Definition greenwald_density_limit (average_plasma_current : scalar)
    (minor_radius : option scalar) : result scalar :=
  let minor_radius := default (PyFloat 0x1.c28f5c28f5c29p-3) minor_radius in
  numpy ← load_global G "np";
  expect_module "numpy" numpy;;
  truediv average_plasma_current (mul (mul pi minor_radius) minor_radius).

Definition greenwald_fraction (average_line_averaged_density greenwald_density : scalar)
  : result scalar :=
  truediv average_line_averaged_density greenwald_density.

End Functions.

End plasma_parameters.
Import np plasma_parameters.

(** ** Reference descriptions used in the statements *)

(** A sample time strictly inside the open window. *)
Definition strictly_inside (time_start time_end t : float) : bool :=
  (time_start <? t)%float && (t <? time_end)%float.

(** The data samples whose time is strictly inside the window, in order. *)
Definition samples_inside (data time : list float) (time_start time_end : float)
  : list float :=
  map fst
    (List.filter (fun sample => strictly_inside time_start time_end (snd sample))
       (combine data time)).

(** [added_up l s]: [s] is obtained from the items of [l], each used exactly
    once, by binary64 additions bracketed and ordered in some way. For float
    data this is what summing the items can mean: the additions round, so
    the value depends on their order. *)
Inductive added_up : list float -> float -> Prop :=
| added_one (x : float) : added_up [x] x
| added_two (l1 l2 : list float) (s1 s2 : float) :
    added_up l1 s1 -> added_up l2 s2 -> added_up (l1 ++ l2) (s1 + s2)%float
| added_perm (l l' : list float) (s : float) :
    Permutation l l' -> added_up l s -> added_up l' s.

(** Both operands are Python floats. *)
Definition python_floats (a b : scalar) : bool :=
  match a, b with
  | PyFloat _, PyFloat _ => true
  | _, _ => false
  end.

(** The four accessors, with the tree each opens, the path it reads and what
    it does to each fetched value. *)
Inductive accessor : Type :=
| LineIntegratedDensity
| LineAveragedDensity
| PlasmaCurrent
| ToroidalMagneticField.

Definition call (a : accessor) (G : gmap string pyobj) (net : MDSplus.Server)
    (shot_number : Z) : result (list float * list float) :=
  match a with
  | LineIntegratedDensity => get_line_integrated_density G net shot_number
  | LineAveragedDensity => get_line_averaged_density G net shot_number
  | PlasmaCurrent => get_plasma_current G net shot_number
  | ToroidalMagneticField => get_toroidal_magnetic_field G net shot_number
  end.

Definition tree_of (a : accessor) : string :=
  match a with
  | LineIntegratedDensity | LineAveragedDensity => "electrons"
  | PlasmaCurrent | ToroidalMagneticField => "magnetics"
  end.

Definition path_of (a : accessor) : string :=
  match a with
  | LineIntegratedDensity => "\ELECTRONS::TOP.TCI.RESULTS.NL_04"
  | LineAveragedDensity => "\ELECTRONS::TOP.TCI.RESULTS.INVERSION.NEBAR_EFIT"
  | PlasmaCurrent => "\MAGNETICS::IP/1000"
  | ToroidalMagneticField => "\MAGNETICS::BTOR"
  end.

Definition sample_of (a : accessor) (raw : float) : float :=
  match a with
  | ToroidalMagneticField => (- raw)%float
  | _ => raw
  end.

(** ** Servers for the examples *)

(** A server that knows the two magnetics signals of every shot, each with a
    time axis of its own length. *)
Definition example_server : MDSplus.Server :=
  {| MDSplus.accepts := fun hostname => String.eqb hostname "alcdata";
     MDSplus.has_tree := fun name _ => String.eqb name "magnetics";
     MDSplus.evaluate := fun _ _ expression =>
       if String.eqb expression "\MAGNETICS::BTOR" then Some [5.5; -5.25; 0]%float
       else if String.eqb expression "dim_of(\MAGNETICS::BTOR)" then Some [0; 0.5; 1]%float
       else if String.eqb expression "\MAGNETICS::IP/1000" then Some [-800; -801.5]%float
       else if String.eqb expression "dim_of(\MAGNETICS::IP/1000)" then Some [0; 0.25]%float
       else None |}.

(** A server whose toroidal field signal has three values on a time axis of
    two points. *)
Definition ragged_server : MDSplus.Server :=
  {| MDSplus.accepts := fun _ => true;
     MDSplus.has_tree := fun _ _ => true;
     MDSplus.evaluate := fun _ _ expression =>
       if String.eqb expression "\MAGNETICS::BTOR" then Some [5.5; 5.5; 5.5]%float
       else if String.eqb expression "dim_of(\MAGNETICS::BTOR)" then Some [0; 1]%float
       else None |}.

(** A server that knows the two density signals of the electrons tree as
    well as the magnetics signals of [example_server]. *)
Definition full_server : MDSplus.Server :=
  {| MDSplus.accepts := fun hostname => String.eqb hostname "alcdata";
     MDSplus.has_tree := fun name _ =>
       String.eqb name "magnetics" || String.eqb name "electrons";
     MDSplus.evaluate := fun name shot expression =>
       if String.eqb expression "\ELECTRONS::TOP.TCI.RESULTS.NL_04"
       then Some [0.5; 0.75; 1.5]%float
       else if String.eqb expression "dim_of(\ELECTRONS::TOP.TCI.RESULTS.NL_04)"
       then Some [0; 0.5; 1]%float
       else if String.eqb expression "\ELECTRONS::TOP.TCI.RESULTS.INVERSION.NEBAR_EFIT"
       then Some [2.5; 3.5]%float
       else if String.eqb expression
                 "dim_of(\ELECTRONS::TOP.TCI.RESULTS.INVERSION.NEBAR_EFIT)"
       then Some [0.25; 0.5]%float
       else MDSplus.evaluate example_server name shot expression |}.

(** ** The order of binary64 values

    [<?] on floats is specified through [SpecFloat.SFcompare]. A value that is
    not a NaN gets a key of three integers (class, exponent, mantissa, the
    last two negated for a negative value) so that comparing values is
    comparing keys lexicographically. *)

Definition order_key (f : SpecFloat.spec_float) : Z * Z * Z :=
  match f with
  | SpecFloat.S754_nan => (0, 0, 0)
  | SpecFloat.S754_zero _ => (0, 0, 0)
  | SpecFloat.S754_infinity true => (-2, 0, 0)
  | SpecFloat.S754_infinity false => (2, 0, 0)
  | SpecFloat.S754_finite true m e => (-1, - e, Z.neg m)
  | SpecFloat.S754_finite false m e => (1, e, Z.pos m)
  end%Z.

Definition compare_keys (a b : Z * Z * Z) : comparison :=
  match (fst (fst a) ?= fst (fst b))%Z with
  | Eq => match (snd (fst a) ?= snd (fst b))%Z with
          | Eq => (snd a ?= snd b)%Z
          | c => c
          end
  | c => c
  end.

(** ** Helper lemmas *)

Section Masks.

Lemma less_Some (arr : list float) (b : scalar) :
  less arr (Some b) = Ok (map (fun t => (t <? value b)%float) arr).
Proof.
  induction arr as [|t rest IH]; [reflexivity|].
  cbn [less elem_lt]. rewrite IH. reflexivity.
Qed.

Lemma greater_Some (arr : list float) (b : scalar) :
  greater arr (Some b) = Ok (map (fun t => (value b <? t)%float) arr).
Proof.
  induction arr as [|t rest IH]; [reflexivity|].
  cbn [greater elem_gt]. rewrite IH. reflexivity.
Qed.

Lemma bitwise_and_map {A : Type} (f g : A -> bool) (l : list A) :
  bitwise_and (map f l) (map g l) = Ok (map (fun x => f x && g x) l).
Proof.
  induction l as [|x rest IH]; [reflexivity|].
  cbn [map bitwise_and]. rewrite IH. reflexivity.
Qed.

Lemma take_where_map (p : float -> bool) (data time : list float) :
  length data = length time ->
  take_where data (map p time)
  = Ok (map fst (List.filter (fun sample => p (snd sample)) (combine data time))).
Proof.
  revert time. induction data as [|d data IH]; intros [|t time] Hlen;
    try discriminate; [reflexivity|].
  injection Hlen as Hlen.
  cbn [map take_where combine List.filter snd]. rewrite (IH _ Hlen).
  destruct (p t); reflexivity.
Qed.

Lemma getitem_mask_map (p : float -> bool) (data time : list float) :
  length data = length time ->
  getitem_mask data (map p time)
  = Ok (map fst (List.filter (fun sample => p (snd sample)) (combine data time))).
Proof.
  intros Hlen. rewrite <- (take_where_map p data time Hlen).
  destruct time as [|t time]; [|reflexivity].
  destruct data; [reflexivity | discriminate Hlen].
Qed.

Lemma filter_none {A : Type} (p : A -> bool) (l : list A) :
  (forall x, In x l -> p x = false) -> List.filter p l = [].
Proof.
  induction l as [|x rest IH]; intros Hp; [reflexivity|].
  cbn [List.filter]. rewrite (Hp x (or_introl eq_refl)).
  apply IH. intros y Hy. apply Hp. right. exact Hy.
Qed.

End Masks.

(** ** numpy's summation *)

Section Summation.

(** Adding onto -0.0 changes nothing, not even the sign of a zero. *)
Lemma neg_zero_add (x : float) : (-0 + x)%float = x.
Proof.
  apply FloatAxioms.Prim2SF_inj. rewrite FloatAxioms.add_spec.
  change (FloatOps.Prim2SF (-0)) with (SpecFloat.S754_zero true).
  destruct (FloatOps.Prim2SF x) as [[|]|[|]| |s m e]; reflexivity.
Qed.

Lemma fold_left_neg_zero (x : float) (rest : list float) :
  fold_left PrimFloat.add (x :: rest) (-0)%float = fold_left PrimFloat.add rest x.
Proof. cbn [fold_left]. rewrite neg_zero_add. reflexivity. Qed.

Lemma half_split_bounds (n : nat) :
  PW_BLOCKSIZE < n -> 0 < half_split n /\ half_split n < n.
Proof.
  unfold PW_BLOCKSIZE, half_split. intros Hn.
  pose proof (Nat.div_mod_eq n 2) as Hdiv.
  pose proof (Nat.mod_upper_bound n 2 ltac:(discriminate)) as Hm2.
  pose proof (Nat.mod_upper_bound (n / 2) 8 ltac:(discriminate)) as Hm8.
  lia.
Qed.

(** Any depth from the length of the array on gives the same sum. *)
Lemma pairwise_sum_depth_enough (d1 d2 : nat) (a : list float) :
  length a <= d1 -> length a <= d2 ->
  pairwise_sum_depth d1 a = pairwise_sum_depth d2 a.
Proof.
  revert d2 a. induction d1 as [|d1 IH]; intros [|d2] a H1 H2; try reflexivity.
  - destruct a; [reflexivity | cbn [length] in H1; lia].
  - destruct a; [reflexivity | cbn [length] in H2; lia].
  - cbn [pairwise_sum_depth].
    destruct (PW_BLOCKSIZE <? length a)%nat eqn:Hbig; [|reflexivity].
    apply Nat.ltb_lt in Hbig. destruct (half_split_bounds _ Hbig) as [Hpos Hlt].
    f_equal; apply IH; rewrite ?length_take, ?length_drop; lia.
Qed.

(** The sum as numpy's recursion reads: a block of up to 128 items is summed
    in one go, a longer array is cut in two. *)
Lemma pairwise_sum_unfold (a : list float) :
  pairwise_sum a
  = if (PW_BLOCKSIZE <? length a)%nat then
      (pairwise_sum (firstn (half_split (length a)) a)
       + pairwise_sum (skipn (half_split (length a)) a))%float
    else block_sum a.
Proof.
  unfold pairwise_sum at 1. destruct a as [|x a]; [reflexivity|].
  cbn [length pairwise_sum_depth].
  destruct (PW_BLOCKSIZE <? S (length a))%nat eqn:Hbig; [|reflexivity].
  apply Nat.ltb_lt in Hbig.
  destruct (half_split_bounds _ Hbig) as [Hpos Hlt].
  unfold pairwise_sum.
  f_equal; apply pairwise_sum_depth_enough;
    rewrite ?length_take, ?length_drop; cbn [length]; lia.
Qed.

Lemma fold_left_added (l tail : list float) (s : float) :
  added_up l s -> added_up (l ++ tail) (fold_left PrimFloat.add tail s).
Proof.
  revert l s. induction tail as [|x tail IH]; intros l s Hs.
  - rewrite app_nil_r. exact Hs.
  - cbn [fold_left]. change (x :: tail) with ([x] ++ tail)%list. rewrite app_assoc.
    apply IH. apply added_two; [exact Hs | apply added_one].
Qed.

(** One round of the 8 accumulators: each takes one more item. *)
Lemma zip_with_added (ls : list (list float)) (r xs : list float) :
  Forall2 added_up ls r ->
  Forall2 added_up (zip_with (fun l x => (l ++ [x])%list) ls xs)
    (zip_with PrimFloat.add r xs).
Proof.
  intros H. revert xs. induction H as [|l s ls r Hl _ IH]; intros [|x xs];
    cbn [zip_with]; constructor.
  - apply added_two; [exact Hl | apply added_one].
  - apply IH.
Qed.

Lemma concat_zip_with_snoc (ls : list (list float)) (xs : list float) :
  length ls = length xs ->
  Permutation (concat (zip_with (fun l x => (l ++ [x])%list) ls xs)) (concat ls ++ xs).
Proof.
  revert xs. induction ls as [|l ls IH]; intros [|x xs] Hlen;
    try discriminate Hlen; [reflexivity|].
  injection Hlen as Hlen. cbn [zip_with concat].
  rewrite (IH xs Hlen). solve_Permutation.
Qed.

Lemma accumulate_added (n : nat) (a : list float) (ls : list (list float))
    (r : list float) :
  length a <= n -> Forall2 added_up ls r -> length r = 8 ->
  exists ls',
    Forall2 added_up ls' (fst (accumulate r a))
    /\ length (fst (accumulate r a)) = 8
    /\ Permutation (concat ls' ++ snd (accumulate r a)) (concat ls ++ a).
Proof.
  revert a ls r. induction n as [|n IH]; intros a ls r Hn Hls Hr.
  - destruct a; [|cbn [length] in Hn; lia]. exists ls. repeat split; auto.
  - destruct a as [|x0 [|x1 [|x2 [|x3 [|x4 [|x5 [|x6 [|x7 rest]]]]]]]];
      try (exists ls; repeat split; auto; fail).
    cbn [accumulate].
    destruct (IH rest _ _ ltac:(cbn [length] in Hn; lia)
                (zip_with_added ls r [x0; x1; x2; x3; x4; x5; x6; x7] Hls)
                ltac:(rewrite length_zip_with; rewrite Hr; reflexivity))
      as (ls' & Hls' & Hr' & Hperm).
    exists ls'. repeat split; [exact Hls' | exact Hr' |].
    rewrite Hperm. rewrite concat_zip_with_snoc.
    + rewrite <- app_assoc. reflexivity.
    + rewrite (Forall2_length _ _ _ Hls), Hr. reflexivity.
Qed.

Lemma combine_accumulators_added (ls : list (list float)) (r : list float) :
  Forall2 added_up ls r -> length r = 8 ->
  added_up (concat ls) (combine_accumulators r).
Proof.
  intros Hls Hr.
  destruct r as [|r0 [|r1 [|r2 [|r3 [|r4 [|r5 [|r6 [|r7 [|]]]]]]]]];
    try discriminate Hr.
  repeat match goal with
         | H : Forall2 _ _ (_ :: _) |- _ =>
             apply Forall2_cons_inv_r in H as (? & ? & ? & H & ->)
         | H : Forall2 _ _ [] |- _ => apply Forall2_nil_inv_r in H as ->
         end.
  cbn [combine_accumulators concat].
  eapply added_perm; [|repeat apply added_two; eassumption].
  rewrite app_nil_r, <- !app_assoc. reflexivity.
Qed.

Lemma block_sum_added (a : list float) :
  a <> [] -> added_up a (block_sum a).
Proof.
  intros Ha.
  destruct a as [|x0 [|x1 [|x2 [|x3 [|x4 [|x5 [|x6 [|x7 rest]]]]]]]];
    try contradiction;
    try (cbn [block_sum]; rewrite fold_left_neg_zero;
         apply (fold_left_added [x0]); apply added_one).
  cbn [block_sum].
  destruct (accumulate_added (length rest) rest
              [[x0]; [x1]; [x2]; [x3]; [x4]; [x5]; [x6]; [x7]]
              [x0; x1; x2; x3; x4; x5; x6; x7] (le_n _))
    as (ls' & Hls' & Hr' & Hperm).
  { repeat constructor. }
  { reflexivity. }
  destruct (accumulate [x0; x1; x2; x3; x4; x5; x6; x7] rest) as [r left_over].
  cbn [fst snd] in *.
  eapply added_perm; [exact Hperm|].
  apply fold_left_added. apply combine_accumulators_added; assumption.
Qed.

(** numpy's sum of a non-empty array adds up exactly the items of the
    array, each once. *)
Lemma pairwise_sum_added (a : list float) :
  a <> [] -> added_up a (pairwise_sum a).
Proof.
  remember (length a) as n eqn:Hn. revert a Hn.
  induction n as [n IH] using lt_wf_ind. intros a -> Ha.
  rewrite pairwise_sum_unfold.
  destruct (PW_BLOCKSIZE <? length a)%nat eqn:Hbig;
    [|exact (block_sum_added a Ha)].
  apply Nat.ltb_lt in Hbig. destruct (half_split_bounds _ Hbig) as [Hpos Hlt].
  rewrite <- (take_drop (half_split (length a)) a) at 1.
  apply added_two.
  - apply (IH (length (take (half_split (length a)) a))); [|reflexivity|].
    + rewrite length_take. lia.
    + intros E. apply (f_equal length) in E. rewrite length_take in E.
      cbn [length] in E. lia.
  - apply (IH (length (drop (half_split (length a)) a))); [|reflexivity|].
    + rewrite length_drop. lia.
    + intros E. apply (f_equal length) in E. rewrite length_drop in E.
      cbn [length] in E. lia.
Qed.

(** Fewer than 8 items are added up in order, from the first. *)
Lemma pairwise_sum_small (x : float) (rest : list float) :
  length (x :: rest) < 8 ->
  pairwise_sum (x :: rest) = fold_left PrimFloat.add rest x.
Proof.
  intros Hlen. rewrite pairwise_sum_unfold.
  assert (Hb : (PW_BLOCKSIZE <? length (x :: rest))%nat = false).
  { apply Nat.ltb_ge. unfold PW_BLOCKSIZE. lia. }
  rewrite Hb.
  destruct rest as [|x1 [|x2 [|x3 [|x4 [|x5 [|x6 [|x7 rest]]]]]]];
    try (cbn [block_sum]; apply fold_left_neg_zero).
  cbn [length] in Hlen. lia.
Qed.

End Summation.

(** With both bounds given, the function is the mean over the samples whose
    time passes both comparisons of line 127; the globals are not read. *)
Lemma window_mean_Some (data time : list float) (ts te : scalar) :
  length data = length time ->
  window_mean data time (Some ts) (Some te)
  = Ok (mean (samples_inside data time (value ts) (value te))).
Proof.
  intros Hlen. unfold window_mean.
  rewrite less_Some, greater_Some. cbn [mbind result_bind].
  rewrite bitwise_and_map. cbn [mbind result_bind].
  rewrite (getitem_mask_map _ _ _ Hlen). cbn [mbind result_bind].
  unfold samples_inside, strictly_inside. do 3 f_equal.
  apply List.filter_ext. intros [d t]. apply andb_comm.
Qed.

Lemma np_unbound : module_globals !! "np" = None.
Proof. reflexivity. Qed.

Lemma mds_bound : load_global module_globals "mds" = Ok (PyModule "MDSplus").
Proof. reflexivity. Qed.

(** ** The missing numpy import *)

(** C10. The module's only import binds [mds] to MDSplus and nothing binds
    [np]; so every call of [greenwald_density_limit], and every call of
    [average_plasma_parameter] with both bounds [None], raises NameError for
    the name [np]. *)
Theorem np_unbound_raises_NameError :
  (forall name module,
      module_globals !! name = Some (PyModule module)
      <-> name = "mds" /\ module = "MDSplus")
  /\ module_globals !! "np" = None
  /\ (forall average_plasma_current minor_radius,
         greenwald_density_limit module_globals average_plasma_current minor_radius
         = Raise (NameError "np"))
  /\ (forall variable_data variable_time,
         average_plasma_parameter module_globals variable_data variable_time None None
         = Raise (NameError "np")).
Proof.
  split; [|split; [|split]].
  - intros name module. unfold module_globals, module_statements.
    cbn [fold_left]. unfold def, import_as.
    rewrite !lookup_insert_Some, lookup_empty. split.
    + intros H. repeat (destruct H as [[_ H]|[_ H]]; [discriminate H|]).
      destruct H as [[Hn Hm]|[_ H]]; [|discriminate H].
      injection Hm as Hm. split; congruence.
    + intros [-> ->]. repeat (right; split; [discriminate|]). left. done.
  - exact np_unbound.
  - intros I r. unfold greenwald_density_limit, load_global.
    rewrite np_unbound. reflexivity.
  - intros data time. unfold average_plasma_parameter, window_bounds, load_global.
    cbn [is_None andb]. rewrite np_unbound. reflexivity.
Qed.

(** With [np] bound to numpy the formula is evaluated as written:
    [I / ((pi * r) * r)], the radius 0.22 when it is left out. *)
Lemma greenwald_density_limit_with_numpy (I : scalar) (r : option scalar) :
  greenwald_density_limit globals_with_numpy I r
  = truediv I (mul (mul pi (default (PyFloat 0.22) r)) (default (PyFloat 0.22) r)).
Proof. reflexivity. Qed.

(** With [np] bound to numpy and both bounds left out, the window is the
    minimum and maximum of a non-empty time array. *)
Lemma average_plasma_parameter_with_numpy (data : list float) (t0 : float)
    (rest : list float) :
  length data = length (t0 :: rest) ->
  average_plasma_parameter globals_with_numpy data (t0 :: rest) None None
  = Ok (mean (samples_inside data (t0 :: rest)
                (fold_left minimum rest t0) (fold_left maximum rest t0))).
Proof.
  intros Hlen. unfold average_plasma_parameter, window_bounds.
  change (load_global globals_with_numpy "np") with (Ok (PyModule "numpy")).
  cbn [is_None andb mbind result_bind expect_module String.eqb Ascii.eqb
       Bool.eqb amin amax].
  exact (window_mean_Some data (t0 :: rest) _ _ Hlen).
Qed.

(** With both bounds given and no sample time strictly inside them, the
    selection is empty and its mean is NaN, whatever the globals. *)
Lemma empty_window_mean_is_nan (G : gmap string pyobj) (data time : list float)
    (ts te : scalar) :
  length data = length time ->
  (forall t, In t time -> strictly_inside (value ts) (value te) t = false) ->
  average_plasma_parameter G data time (Some ts) (Some te) = Ok (Float64 nan).
Proof.
  intros Hlen Hout. unfold average_plasma_parameter, window_bounds.
  cbn [is_None andb mbind result_bind].
  rewrite (window_mean_Some _ _ _ _ Hlen). unfold samples_inside.
  rewrite filter_none; [reflexivity|].
  intros [d t] Hin. apply Hout. exact (in_combine_r _ _ _ _ Hin).
Qed.

(** C1, at the documented example. In the module as written
    [greenwald_density_limit(1.0, 0.22)], and the same call with the radius
    left out, raise NameError for [np] where the formula gives about 6.577;
    with numpy imported as [np] both return 6.5766505409874103, which is
    [1 / (pi * 0.22 * 0.22)] and rounds to 6.577. *)
Theorem greenwald_density_limit_example :
  greenwald_density_limit module_globals (PyFloat 1.0) (Some (PyFloat 0.22))
  = Raise (NameError "np")
  /\ greenwald_density_limit module_globals (PyFloat 1.0) None
     = Raise (NameError "np")
  /\ greenwald_density_limit globals_with_numpy (PyFloat 1.0) (Some (PyFloat 0.22))
     = Ok (PyFloat 6.5766505409874103)
  /\ greenwald_density_limit globals_with_numpy (PyFloat 1.0) None
     = Ok (PyFloat 6.5766505409874103)
  /\ (6.5765 <? 6.5766505409874103)%float = true
  /\ (6.5766505409874103 <? 6.5775)%float = true.
Proof. repeat split; vm_compute; reflexivity. Qed.

(** C3, at the documented example. With both bounds [None] and times 0..4 the
    module as written raises NameError for [np] where the docstring promises the
    mean of the samples at times 1, 2, 3; with numpy imported as [np] the
    window is (0, 4), those three samples are selected and their mean 3 is
    returned. *)
Theorem average_plasma_parameter_default_window_example :
  average_plasma_parameter module_globals
    [1; 2; 3; 4; 5]%float [0; 1; 2; 3; 4]%float None None
  = Raise (NameError "np")
  /\ average_plasma_parameter globals_with_numpy
       [1; 2; 3; 4; 5]%float [0; 1; 2; 3; 4]%float None None
     = Ok (mean [2; 3; 4]%float)
  /\ samples_inside [1; 2; 3; 4; 5]%float [0; 1; 2; 3; 4]%float 0 4
     = [2; 3; 4]%float
  /\ mean [2; 3; 4]%float = Float64 3.
Proof. repeat split; vm_compute; reflexivity. Qed.

(** C8, at a default window with nothing inside. With data [1, 2] at times
    [0, 1] and both bounds [None], no time is strictly between 0 and 1; the
    module as written raises NameError for [np] where the mean of the empty
    selection, NaN, is expected;
    with numpy imported as [np] the call returns NaN. *)
Theorem average_plasma_parameter_empty_default_window_example :
  average_plasma_parameter module_globals [1; 2]%float [0; 1]%float None None
  = Raise (NameError "np")
  /\ samples_inside [1; 2]%float [0; 1]%float 0 1 = []
  /\ average_plasma_parameter globals_with_numpy [1; 2]%float [0; 1]%float None None
     = Ok (Float64 nan).
Proof. repeat split; vm_compute; reflexivity. Qed.

(** ** The time window *)

(** C2. With both bounds given and a time array as long as the data,
    [average_plasma_parameter] selects exactly the samples whose time is
    strictly greater than [time_start] and strictly less than [time_end] and
    returns their mean: the selected samples added up, each exactly once,
    over their count. The additions are numpy's (onto the identity 0.0);
    fewer than 8 selected samples are added in order from the first. *)
Theorem average_plasma_parameter_strict_window (G : gmap string pyobj)
    (data time : list float) (time_start time_end : scalar) :
  length data = length time ->
  average_plasma_parameter G data time (Some time_start) (Some time_end)
  = Ok (Float64
          (sum (samples_inside data time (value time_start) (value time_end))
           / count (samples_inside data time (value time_start) (value time_end))))
  /\ (samples_inside data time (value time_start) (value time_end) <> [] ->
      exists s,
        added_up (samples_inside data time (value time_start) (value time_end)) s
        /\ sum (samples_inside data time (value time_start) (value time_end))
           = (0 + s)%float)
  /\ (forall x rest,
         samples_inside data time (value time_start) (value time_end) = x :: rest ->
         length (x :: rest) < 8 ->
         sum (samples_inside data time (value time_start) (value time_end))
         = (0 + fold_left PrimFloat.add rest x)%float).
Proof.
  intros Hlen. split; [|split].
  - unfold average_plasma_parameter, window_bounds.
    cbn [is_None andb mbind result_bind].
    exact (window_mean_Some data time time_start time_end Hlen).
  - intros Hsel. eexists. split; [exact (pairwise_sum_added _ Hsel) | reflexivity].
  - intros x rest -> Hsmall. unfold sum.
    rewrite (pairwise_sum_small x rest Hsmall). reflexivity.
Qed.

(** C2, three instances. Data 1..5 at times 0..4 with the window (1, 3):
    only the sample at time 2 is selected and 3 is returned. The same signal
    with the window (0, 4): the samples at times 1, 2, 3 are selected and
    (2 + 3 + 4) / 3 = 3 is returned. Eight samples 0.1 inside the window:
    they are added in 8 accumulators and 0.1 is returned. *)
Lemma average_plasma_parameter_strict_window_witness :
  (samples_inside [1; 2; 3; 4; 5]%float [0; 1; 2; 3; 4]%float 1 3 = [3]%float
   /\ average_plasma_parameter module_globals
        [1; 2; 3; 4; 5]%float [0; 1; 2; 3; 4]%float
        (Some (PyFloat 1)) (Some (PyFloat 3))
      = Ok (Float64 3))
  /\ (samples_inside [1; 2; 3; 4; 5]%float [0; 1; 2; 3; 4]%float 0 4
      = [2; 3; 4]%float
      /\ average_plasma_parameter module_globals
           [1; 2; 3; 4; 5]%float [0; 1; 2; 3; 4]%float
           (Some (PyFloat 0)) (Some (PyFloat 4))
         = Ok (Float64 3))
  /\ average_plasma_parameter module_globals
       [0.1; 0.1; 0.1; 0.1; 0.1; 0.1; 0.1; 0.1]%float
       [0; 1; 2; 3; 4; 5; 6; 7]%float
       (Some (PyFloat (-1))) (Some (PyFloat 8))
     = Ok (Float64 0.1).
Proof.
  split; [split; [reflexivity|] | split; [split; [reflexivity|] |]].
  - exact (proj1 (average_plasma_parameter_strict_window module_globals
                    [1; 2; 3; 4; 5]%float [0; 1; 2; 3; 4]%float
                    (PyFloat 1) (PyFloat 3) eq_refl)).
  - exact (proj1 (average_plasma_parameter_strict_window module_globals
                    [1; 2; 3; 4; 5]%float [0; 1; 2; 3; 4]%float
                    (PyFloat 0) (PyFloat 4) eq_refl)).
  - exact (proj1 (average_plasma_parameter_strict_window module_globals
                    [0.1; 0.1; 0.1; 0.1; 0.1; 0.1; 0.1; 0.1]%float
                    [0; 1; 2; 3; 4; 5; 6; 7]%float
                    (PyFloat (-1)) (PyFloat 8) eq_refl)).
Defined.

(** C4. When exactly one of [time_start] and [time_end] is given, no default
    is put in place of the missing one: the bounds reach the comparison of
    line 127 as they were passed, the globals are not read, and on a
    non-empty time array the comparison with [None] raises TypeError. *)
Theorem one_bound_given_no_default (G : gmap string pyobj)
    (data time : list float) (time_start time_end : option scalar) :
  xorb (is_None time_start) (is_None time_end) = true ->
  window_bounds G time time_start time_end = Ok (time_start, time_end)
  /\ average_plasma_parameter G data time time_start time_end
     = window_mean data time time_start time_end
  /\ (time <> [] ->
      average_plasma_parameter G data time time_start time_end = Raise TypeError).
Proof.
  intros Hone.
  assert (Hb : window_bounds G time time_start time_end = Ok (time_start, time_end)).
  { unfold window_bounds.
    destruct time_start, time_end; try discriminate Hone; reflexivity. }
  assert (Ha : average_plasma_parameter G data time time_start time_end
               = window_mean data time time_start time_end).
  { unfold average_plasma_parameter. rewrite Hb. reflexivity. }
  repeat split; [exact Hb | exact Ha |].
  intros Hne. rewrite Ha. unfold window_mean.
  destruct time as [|t rest]; [contradiction|].
  destruct time_start as [ts|], time_end as [te|]; try discriminate Hone.
  - reflexivity.
  - rewrite less_Some. reflexivity.
Qed.

(** C4, an instance: only [time_start] = 1 is given for times 0..4. *)
Lemma one_bound_given_no_default_witness :
  window_bounds module_globals [0; 1; 2; 3; 4]%float (Some (PyFloat 1)) None
  = Ok (Some (PyFloat 1), None)
  /\ average_plasma_parameter module_globals
       [1; 2; 3; 4; 5]%float [0; 1; 2; 3; 4]%float (Some (PyFloat 1)) None
     = window_mean [1; 2; 3; 4; 5]%float [0; 1; 2; 3; 4]%float
         (Some (PyFloat 1)) None
  /\ ([0; 1; 2; 3; 4]%float <> [] ->
      average_plasma_parameter module_globals
        [1; 2; 3; 4; 5]%float [0; 1; 2; 3; 4]%float (Some (PyFloat 1)) None
      = Raise TypeError).
Proof.
  exact (one_bound_given_no_default module_globals
           [1; 2; 3; 4; 5]%float [0; 1; 2; 3; 4]%float
           (Some (PyFloat 1)) None eq_refl).
Defined.

(** ** The Greenwald fraction *)

(** C5 as stated fails: for the Python floats 1.0 and 0.0 the division
    raises ZeroDivisionError, so not every [n] and [g] have a returned
    ratio. *)
Lemma greenwald_fraction_zero_divisor_raises :
  greenwald_fraction (PyFloat 1.0) (PyFloat 0.0) = Raise ZeroDivisionError
  /\ ~ (forall n g : scalar,
          exists q, greenwald_fraction n g = Ok q
                    /\ value q = (value n / value g)%float).
Proof.
  split; [reflexivity|].
  intros H. destruct (H (PyFloat 1.0) (PyFloat 0.0)) as (q & Hq & _).
  discriminate Hq.
Qed.

(** C5, amended. Unless [n] and [g] are both Python floats and [g] is zero,
    [greenwald_fraction(n, g)] returns the binary64 quotient [n / g] as it
    is, with no clamping to [0, 1] (0.5 / 1.0 gives 0.5 and 2.0 / 1.0 gives
    2.0); two Python floats with a zero divisor raise ZeroDivisionError. *)
Theorem greenwald_fraction_is_ratio :
  (forall n g : scalar,
      (python_floats n g && (value g =? 0)%float = true
       /\ greenwald_fraction n g = Raise ZeroDivisionError)
      \/ (python_floats n g && (value g =? 0)%float = false
          /\ exists q, greenwald_fraction n g = Ok q
                       /\ value q = (value n / value g)%float))
  /\ greenwald_fraction (PyFloat 0.5) (PyFloat 1.0) = Ok (PyFloat 0.5)
  /\ greenwald_fraction (PyFloat 2.0) (PyFloat 1.0) = Ok (PyFloat 2.0)
  /\ greenwald_fraction (Float64 2.0) (Float64 1.0) = Ok (Float64 2.0).
Proof.
  split; [|repeat split; reflexivity].
  intros n g. unfold greenwald_fraction, truediv.
  destruct n as [x|x], g as [y|y]; cbn [python_floats value andb].
  - destruct (y =? 0)%float.
    + left. split; reflexivity.
    + right. split; [reflexivity|]. eexists. split; reflexivity.
  - right. split; [reflexivity|]. eexists. split; reflexivity.
  - right. split; [reflexivity|]. eexists. split; reflexivity.
  - right. split; [reflexivity|]. eexists. split; reflexivity.
Qed.

(** ** The accessors *)

(** One accessor run against a server that accepts the connection, has the
    tree, and answers both expressions. *)
Lemma call_fetched (a : accessor) (net : MDSplus.Server) (shot_number : Z)
    (raw time : list float) :
  MDSplus.accepts net "alcdata" = true ->
  MDSplus.has_tree net (tree_of a) shot_number = true ->
  MDSplus.evaluate net (tree_of a) shot_number (path_of a) = Some raw ->
  MDSplus.evaluate net (tree_of a) shot_number (dim_of (path_of a)) = Some time ->
  call a module_globals net shot_number = Ok (time, map (sample_of a) raw).
Proof.
  intros Hacc Htree Hraw Htime.
  destruct a; cbn [call tree_of path_of sample_of] in *;
    [ unfold get_line_integrated_density
    | unfold get_line_averaged_density
    | unfold get_plasma_current
    | unfold get_toroidal_magnetic_field ];
    rewrite mds_bound; unfold MDSplus.Connection, MDSplus.openTree, MDSplus.get;
    cbn [mbind result_bind expect_module String.eqb Ascii.eqb Bool.eqb];
    rewrite Hacc; cbn [mbind result_bind MDSplus.host MDSplus.tree];
    rewrite Htree; cbn [mbind result_bind MDSplus.host MDSplus.tree];
    rewrite Hraw, Htime; cbn [mbind result_bind];
    rewrite ?map_id; reflexivity.
Qed.

(** C6. When the fetch succeeds, [get_toroidal_magnetic_field] returns as
    data the element-wise negation of the values fetched from
    [\MAGNETICS::BTOR], and as time the fetched time axis unchanged. *)
Theorem toroidal_magnetic_field_is_negated (net : MDSplus.Server)
    (shot_number : Z) (raw time : list float) :
  MDSplus.accepts net "alcdata" = true ->
  MDSplus.has_tree net "magnetics" shot_number = true ->
  MDSplus.evaluate net "magnetics" shot_number "\MAGNETICS::BTOR" = Some raw ->
  MDSplus.evaluate net "magnetics" shot_number "dim_of(\MAGNETICS::BTOR)"
  = Some time ->
  get_toroidal_magnetic_field module_globals net shot_number
  = Ok (time, map PrimFloat.opp raw).
Proof. exact (call_fetched ToroidalMagneticField net shot_number raw time). Qed.

(** C6, on the example server: the field 5.5, -5.25, 0 comes back as
    -5.5, 5.25, -0 on the time axis 0, 0.5, 1. *)
Lemma toroidal_magnetic_field_is_negated_witness :
  get_toroidal_magnetic_field module_globals example_server 1160616018
  = Ok ([0; 0.5; 1]%float, [-5.5; 5.25; -0]%float).
Proof.
  exact (toroidal_magnetic_field_is_negated example_server 1160616018
           [5.5; -5.25; 0]%float [0; 0.5; 1]%float
           eq_refl eq_refl eq_refl eq_refl).
Defined.

(** C7. When the fetch succeeds, [get_plasma_current] returns as data the
    values fetched for the expression [\MAGNETICS::IP/1000] (the division is
    part of the expression the server evaluates) with nothing done to them,
    and as time the fetched time axis. *)
Theorem plasma_current_is_fetched_as_is (net : MDSplus.Server)
    (shot_number : Z) (raw time : list float) :
  MDSplus.accepts net "alcdata" = true ->
  MDSplus.has_tree net "magnetics" shot_number = true ->
  MDSplus.evaluate net "magnetics" shot_number "\MAGNETICS::IP/1000" = Some raw ->
  MDSplus.evaluate net "magnetics" shot_number "dim_of(\MAGNETICS::IP/1000)"
  = Some time ->
  get_plasma_current module_globals net shot_number = Ok (time, raw).
Proof.
  intros Hacc Htree Hraw Htime.
  change (get_plasma_current module_globals net shot_number)
    with (call PlasmaCurrent module_globals net shot_number).
  rewrite (call_fetched PlasmaCurrent net shot_number raw time Hacc Htree Hraw Htime).
  cbn [sample_of]. rewrite map_id. reflexivity.
Qed.

(** C7, on the example server. *)
Lemma plasma_current_is_fetched_as_is_witness :
  get_plasma_current module_globals example_server 1160616018
  = Ok ([0; 0.25]%float, [-800; -801.5]%float).
Proof.
  exact (plasma_current_is_fetched_as_is example_server 1160616018
           [-800; -801.5]%float [0; 0.25]%float
           eq_refl eq_refl eq_refl eq_refl).
Defined.

(** C9 as stated fails: against a server whose toroidal field has three
    values on a time axis of two points the fetch succeeds and the accessor
    returns two times with three data values. *)
Lemma accessor_lengths_differ_on_ragged_server :
  exists t d,
    get_toroidal_magnetic_field module_globals ragged_server 1160616018 = Ok (t, d)
    /\ length t <> length d.
Proof.
  exists [0; 1]%float, [-5.5; -5.5; -5.5]%float.
  split; [reflexivity | discriminate].
Qed.

(** C9, amended. When the fetch succeeds, each accessor returns the fetched
    time axis unchanged and one data element per fetched value, in order (the
    value itself, negated by the toroidal field accessor); no length is
    checked, so time and data have equal length exactly when the fetched
    time axis and values do. *)
Theorem accessor_lengths_follow_fetched (a : accessor) (net : MDSplus.Server)
    (shot_number : Z) (raw time : list float) :
  MDSplus.accepts net "alcdata" = true ->
  MDSplus.has_tree net (tree_of a) shot_number = true ->
  MDSplus.evaluate net (tree_of a) shot_number (path_of a) = Some raw ->
  MDSplus.evaluate net (tree_of a) shot_number (dim_of (path_of a)) = Some time ->
  exists t d,
    call a module_globals net shot_number = Ok (t, d)
    /\ t = time
    /\ d = map (sample_of a) raw
    /\ length d = length raw
    /\ (length t = length d <-> length time = length raw).
Proof.
  intros Hacc Htree Hraw Htime.
  exists time, (map (sample_of a) raw).
  rewrite (call_fetched a net shot_number raw time Hacc Htree Hraw Htime).
  rewrite length_map. repeat split; auto.
Qed.

(** C9 amended, on the example server's plasma current: two times, two
    values. *)
Lemma accessor_lengths_follow_fetched_witness :
  exists t d,
    call PlasmaCurrent module_globals example_server 1160616018 = Ok (t, d)
    /\ t = [0; 0.25]%float
    /\ d = map (sample_of PlasmaCurrent) [-800; -801.5]%float
    /\ length d = length [-800; -801.5]%float
    /\ (length t = length d
        <-> length [0; 0.25]%float = length [-800; -801.5]%float).
Proof.
  exact (accessor_lengths_follow_fetched PlasmaCurrent example_server 1160616018
           [-800; -801.5]%float [0; 0.25]%float
           eq_refl eq_refl eq_refl eq_refl).
Defined.

(** ** Further properties *)

(** *** The order of floats *)

Section FloatOrder.

Lemma SFcompare_keys (x y : SpecFloat.spec_float) :
  x <> SpecFloat.S754_nan -> y <> SpecFloat.S754_nan ->
  SpecFloat.SFcompare x y = Some (compare_keys (order_key x) (order_key y)).
Proof.
  intros Hx Hy.
  destruct x as [sx|sx| |sx mx ex], y as [sy|sy| |sy my ey];
    try contradiction; try (destruct sx); try (destruct sy); try reflexivity.
  unfold compare_keys. cbn [SpecFloat.SFcompare order_key fst snd].
  change (-1 ?= -1)%Z with Eq. cbn iota.
  rewrite Z.compare_opp, (Z.compare_antisym ex ey).
  destruct (ex ?= ey)%Z; reflexivity.
Qed.

Lemma SFcompare_refl (x : SpecFloat.spec_float) :
  x <> SpecFloat.S754_nan -> SpecFloat.SFcompare x x = Some Eq.
Proof.
  intros Hx. rewrite (SFcompare_keys x x Hx Hx). unfold compare_keys.
  rewrite !Z.compare_refl. reflexivity.
Qed.

Lemma ltb_irrefl (x : float) : (x <? x)%float = false.
Proof.
  rewrite FloatAxioms.ltb_spec. unfold SpecFloat.SFltb.
  destruct (FloatOps.Prim2SF x) as [s|s| |s m e] eqn:E;
    try (rewrite SFcompare_refl by discriminate); reflexivity.
Qed.

Lemma Prim2SF_nan (x : float) :
  is_nan x = true -> FloatOps.Prim2SF x = SpecFloat.S754_nan.
Proof.
  unfold is_nan. rewrite FloatAxioms.eqb_spec. unfold SpecFloat.SFeqb.
  destruct (FloatOps.Prim2SF x) as [s|s| |s m e] eqn:E;
    try (rewrite SFcompare_refl by discriminate; discriminate); reflexivity.
Qed.

Lemma ltb_nan_l (x y : float) : is_nan x = true -> (x <? y)%float = false.
Proof.
  intros H. rewrite FloatAxioms.ltb_spec, (Prim2SF_nan x H). reflexivity.
Qed.


(** Nothing lies strictly between [a] and [c] when [c <= a]. *)
Lemma ltb_closed_above (a b c : float) :
  (c <=? a)%float = true -> (a <? b)%float = true -> (b <? c)%float = false.
Proof.
  rewrite FloatAxioms.leb_spec, !FloatAxioms.ltb_spec.
  unfold SpecFloat.SFleb, SpecFloat.SFltb.
  set (x := FloatOps.Prim2SF a). set (y := FloatOps.Prim2SF b).
  set (z := FloatOps.Prim2SF c). clearbody x y z.
  intros Hca Hab.
  assert (Hx : x <> SpecFloat.S754_nan).
  { intros ->. destruct z; discriminate Hca. }
  assert (Hy : y <> SpecFloat.S754_nan).
  { intros ->. destruct x; discriminate Hab. }
  assert (Hz : z <> SpecFloat.S754_nan).
  { intros ->. discriminate Hca. }
  rewrite (SFcompare_keys _ _ Hz Hx) in Hca.
  rewrite (SFcompare_keys _ _ Hx Hy) in Hab.
  rewrite (SFcompare_keys _ _ Hy Hz).
  destruct (order_key x) as [[x1 x2] x3], (order_key y) as [[y1 y2] y3],
    (order_key z) as [[z1 z2] z3].
  unfold compare_keys in *. cbn [fst snd] in *.
  repeat match goal with
         | H : context [(?u ?= ?v)%Z] |- _ => destruct (Z.compare_spec u v)
         | |- context [(?u ?= ?v)%Z] => destruct (Z.compare_spec u v)
         end; try discriminate; try reflexivity; lia.
Qed.

Lemma opp_involutive (x : float) : (- - x)%float = x.
Proof.
  apply FloatAxioms.Prim2SF_inj. rewrite !FloatAxioms.opp_spec.
  destruct (FloatOps.Prim2SF x); cbn; rewrite ?negb_involutive; reflexivity.
Qed.


(** Equal floats (the two zeros among them) compare alike with any float. *)
Lemma eqb_same_order (x y t : float) :
  (x =? y)%float = true ->
  (x <? t)%float = (y <? t)%float /\ (t <? x)%float = (t <? y)%float.
Proof.
  rewrite FloatAxioms.eqb_spec, !FloatAxioms.ltb_spec.
  unfold SpecFloat.SFeqb, SpecFloat.SFltb.
  set (a := FloatOps.Prim2SF x). set (b := FloatOps.Prim2SF y).
  set (c := FloatOps.Prim2SF t). clearbody a b c. intros Heq.
  assert (Ha : a <> SpecFloat.S754_nan).
  { intros ->. discriminate Heq. }
  assert (Hb : b <> SpecFloat.S754_nan).
  { intros ->. destruct a; discriminate Heq. }
  rewrite (SFcompare_keys _ _ Ha Hb) in Heq.
  assert (Hk : order_key a = order_key b).
  { destruct (order_key a) as [[a1 a2] a3], (order_key b) as [[b1 b2] b3].
    unfold compare_keys in Heq. cbn [fst snd] in Heq.
    destruct (Z.compare_spec a1 b1); try discriminate Heq.
    destruct (Z.compare_spec a2 b2); try discriminate Heq.
    destruct (Z.compare_spec a3 b3); try discriminate Heq.
    congruence. }
  destruct c as [sc|sc| |sc mc ec] eqn:Hc;
    try (rewrite !SFcompare_keys by (assumption || discriminate);
         rewrite Hk; split; reflexivity).
  split; [destruct a, b; reflexivity | reflexivity].
Qed.

End FloatOrder.

(** The bounds enter [average_plasma_parameter] through the two comparisons
    only: bounds that are equal as floats (which zero [amin] or [amax]
    returns, say) give the same result. *)
Lemma window_mean_equal_bounds (data time : list float) (ts ts' te te' : scalar) :
  (value ts =? value ts')%float = true ->
  (value te =? value te')%float = true ->
  window_mean data time (Some ts) (Some te)
  = window_mean data time (Some ts') (Some te').
Proof.
  intros Hs He. unfold window_mean. rewrite !less_Some, !greater_Some.
  assert (H1 : map (fun t => (t <? value te)%float) time
               = map (fun t => (t <? value te')%float) time).
  { apply map_ext. intros t. apply (eqb_same_order _ _ t He). }
  assert (H2 : map (fun t => (value ts <? t)%float) time
               = map (fun t => (value ts' <? t)%float) time).
  { apply map_ext. intros t. apply (eqb_same_order _ _ t Hs). }
  rewrite H1, H2. reflexivity.
Qed.

(** *** The accessors, step by step *)

(** What every accessor does against a server: connect, open its tree for
    the shot, fetch the values, fetch the time axis; the first step that
    fails ends the call. *)
Lemma call_steps (a : accessor) (net : MDSplus.Server) (shot_number : Z) :
  call a module_globals net shot_number
  = if MDSplus.accepts net "alcdata" then
      if MDSplus.has_tree net (tree_of a) shot_number then
        match MDSplus.evaluate net (tree_of a) shot_number (path_of a) with
        | Some raw =>
            match MDSplus.evaluate net (tree_of a) shot_number (dim_of (path_of a)) with
            | Some time => Ok (time, map (sample_of a) raw)
            | None => Raise MdsException
            end
        | None => Raise MdsException
        end
      else Raise MdsException
    else Raise MdsException.
Proof.
  destruct a; cbn [call tree_of path_of sample_of];
    [ unfold get_line_integrated_density
    | unfold get_line_averaged_density
    | unfold get_plasma_current
    | unfold get_toroidal_magnetic_field ];
    rewrite mds_bound; unfold MDSplus.Connection, MDSplus.openTree, MDSplus.get;
    cbn [mbind result_bind expect_module String.eqb Ascii.eqb Bool.eqb];
    (destruct (MDSplus.accepts net "alcdata");
     cbn [mbind result_bind MDSplus.host MDSplus.tree]; [|reflexivity]);
    (destruct (MDSplus.has_tree net _ shot_number);
     cbn [mbind result_bind MDSplus.host MDSplus.tree]; [|reflexivity]);
    repeat match goal with
           | |- context [MDSplus.evaluate ?n ?t ?s ?e] =>
               destruct (MDSplus.evaluate n t s e); cbn [mbind result_bind]
           end;
    rewrite ?map_id; reflexivity.
Qed.

(** X1. When the fetch succeeds, [get_line_integrated_density] opens the
    electrons tree and returns the values of [NL_04] and their time axis as
    fetched. *)
Theorem line_integrated_density_is_fetched_as_is (net : MDSplus.Server)
    (shot_number : Z) (raw time : list float) :
  MDSplus.accepts net "alcdata" = true ->
  MDSplus.has_tree net "electrons" shot_number = true ->
  MDSplus.evaluate net "electrons" shot_number "\ELECTRONS::TOP.TCI.RESULTS.NL_04"
  = Some raw ->
  MDSplus.evaluate net "electrons" shot_number
    "dim_of(\ELECTRONS::TOP.TCI.RESULTS.NL_04)" = Some time ->
  get_line_integrated_density module_globals net shot_number = Ok (time, raw).
Proof.
  intros Hacc Htree Hraw Htime.
  change (get_line_integrated_density module_globals net shot_number)
    with (call LineIntegratedDensity module_globals net shot_number).
  rewrite (call_fetched LineIntegratedDensity net shot_number raw time
             Hacc Htree Hraw Htime).
  cbn [sample_of]. rewrite map_id. reflexivity.
Qed.

Lemma line_integrated_density_is_fetched_as_is_witness :
  get_line_integrated_density module_globals full_server 1160616018
  = Ok ([0; 0.5; 1]%float, [0.5; 0.75; 1.5]%float).
Proof.
  exact (line_integrated_density_is_fetched_as_is full_server 1160616018
           [0.5; 0.75; 1.5]%float [0; 0.5; 1]%float
           eq_refl eq_refl eq_refl eq_refl).
Defined.

(** X2. When the fetch succeeds, [get_line_averaged_density] opens the
    electrons tree and returns the values of [NEBAR_EFIT] and their time
    axis as fetched. *)
Theorem line_averaged_density_is_fetched_as_is (net : MDSplus.Server)
    (shot_number : Z) (raw time : list float) :
  MDSplus.accepts net "alcdata" = true ->
  MDSplus.has_tree net "electrons" shot_number = true ->
  MDSplus.evaluate net "electrons" shot_number
    "\ELECTRONS::TOP.TCI.RESULTS.INVERSION.NEBAR_EFIT" = Some raw ->
  MDSplus.evaluate net "electrons" shot_number
    "dim_of(\ELECTRONS::TOP.TCI.RESULTS.INVERSION.NEBAR_EFIT)" = Some time ->
  get_line_averaged_density module_globals net shot_number = Ok (time, raw).
Proof.
  intros Hacc Htree Hraw Htime.
  change (get_line_averaged_density module_globals net shot_number)
    with (call LineAveragedDensity module_globals net shot_number).
  rewrite (call_fetched LineAveragedDensity net shot_number raw time
             Hacc Htree Hraw Htime).
  cbn [sample_of]. rewrite map_id. reflexivity.
Qed.

Lemma line_averaged_density_is_fetched_as_is_witness :
  get_line_averaged_density module_globals full_server 1160616018
  = Ok ([0.25; 0.5]%float, [2.5; 3.5]%float).
Proof.
  exact (line_averaged_density_is_fetched_as_is full_server 1160616018
           [2.5; 3.5]%float [0.25; 0.5]%float
           eq_refl eq_refl eq_refl eq_refl).
Defined.

(** X3. An accessor returns a pair exactly when the host accepts the
    connection, the tree exists for the shot and the server answers both
    expressions; the pair is then the answered time axis with the answered
    values (negated by the toroidal field accessor), never anything else. *)
Theorem accessor_returns_exactly_the_fetched (a : accessor)
    (net : MDSplus.Server) (shot_number : Z) (t d : list float) :
  call a module_globals net shot_number = Ok (t, d)
  <-> MDSplus.accepts net "alcdata" = true
      /\ MDSplus.has_tree net (tree_of a) shot_number = true
      /\ exists raw,
           MDSplus.evaluate net (tree_of a) shot_number (path_of a) = Some raw
           /\ MDSplus.evaluate net (tree_of a) shot_number (dim_of (path_of a))
              = Some t
           /\ d = map (sample_of a) raw.
Proof.
  rewrite call_steps. split.
  - destruct (MDSplus.accepts net "alcdata"); [|discriminate].
    destruct (MDSplus.has_tree net (tree_of a) shot_number); [|discriminate].
    destruct (MDSplus.evaluate net (tree_of a) shot_number (path_of a))
      as [raw|]; [|discriminate].
    destruct (MDSplus.evaluate net (tree_of a) shot_number (dim_of (path_of a)))
      as [time|]; [|discriminate].
    intros H. injection H as -> <-. repeat split. exists raw. repeat split.
  - intros (-> & -> & raw & -> & -> & ->). reflexivity.
Qed.

(** X4. When the host refuses the connection, or the tree is missing for the
    shot, or the values or the time axis cannot be evaluated, the accessor
    raises the client's error; in particular values fetched without a time
    axis are not returned. *)
Theorem accessor_failure_raises (a : accessor) (net : MDSplus.Server)
    (shot_number : Z) :
  MDSplus.accepts net "alcdata" = false
  \/ MDSplus.has_tree net (tree_of a) shot_number = false
  \/ MDSplus.evaluate net (tree_of a) shot_number (path_of a) = None
  \/ MDSplus.evaluate net (tree_of a) shot_number (dim_of (path_of a)) = None ->
  call a module_globals net shot_number = Raise MdsException.
Proof.
  rewrite call_steps. intros [H|[H|[H|H]]]; rewrite H.
  - reflexivity.
  - destruct (MDSplus.accepts net "alcdata"); reflexivity.
  - destruct (MDSplus.accepts net "alcdata"),
      (MDSplus.has_tree net (tree_of a) shot_number); reflexivity.
  - destruct (MDSplus.accepts net "alcdata"),
      (MDSplus.has_tree net (tree_of a) shot_number),
      (MDSplus.evaluate net (tree_of a) shot_number (path_of a)); reflexivity.
Qed.

(** X4, two instances: the example server has no electrons tree, and the
    ragged server has toroidal field values but no plasma current. *)
Lemma accessor_failure_raises_witness :
  call LineIntegratedDensity module_globals example_server 1160616018
  = Raise MdsException
  /\ call PlasmaCurrent module_globals ragged_server 1160616018
     = Raise MdsException.
Proof.
  split.
  - exact (accessor_failure_raises LineIntegratedDensity example_server
             1160616018 (or_intror (or_introl eq_refl))).
  - exact (accessor_failure_raises PlasmaCurrent ragged_server
             1160616018 (or_intror (or_intror (or_introl eq_refl)))).
Defined.

(** X5. An accessor depends on the server only through the host [alcdata],
    its own tree for the given shot and its two expressions: servers that
    agree there give the same result, whatever they hold for other hosts,
    trees, shots or signals. *)
Theorem accessor_reads_its_signal_only (a : accessor)
    (net net' : MDSplus.Server) (shot_number : Z) :
  MDSplus.accepts net "alcdata" = MDSplus.accepts net' "alcdata" ->
  MDSplus.has_tree net (tree_of a) shot_number
  = MDSplus.has_tree net' (tree_of a) shot_number ->
  MDSplus.evaluate net (tree_of a) shot_number (path_of a)
  = MDSplus.evaluate net' (tree_of a) shot_number (path_of a) ->
  MDSplus.evaluate net (tree_of a) shot_number (dim_of (path_of a))
  = MDSplus.evaluate net' (tree_of a) shot_number (dim_of (path_of a)) ->
  call a module_globals net shot_number = call a module_globals net' shot_number.
Proof.
  intros Hacc Htree Hraw Htime.
  rewrite !call_steps, Hacc, Htree, Hraw, Htime. reflexivity.
Qed.

(** X5, an instance: the plasma current is the same from the example server
    and from the server that also holds the density signals. *)
Lemma accessor_reads_its_signal_only_witness :
  call PlasmaCurrent module_globals example_server 1160616018
  = call PlasmaCurrent module_globals full_server 1160616018.
Proof.
  exact (accessor_reads_its_signal_only PlasmaCurrent example_server full_server
           1160616018 eq_refl eq_refl eq_refl eq_refl).
Defined.

(** X6. The sign flip of the toroidal field loses nothing: negating the
    returned data gives back the fetched values. *)
Theorem toroidal_magnetic_field_sign_round_trip (net : MDSplus.Server)
    (shot_number : Z) (raw t d : list float) :
  MDSplus.evaluate net "magnetics" shot_number "\MAGNETICS::BTOR" = Some raw ->
  get_toroidal_magnetic_field module_globals net shot_number = Ok (t, d) ->
  negative d = raw.
Proof.
  intros Hraw Hcall.
  change (get_toroidal_magnetic_field module_globals net shot_number)
    with (call ToroidalMagneticField module_globals net shot_number) in Hcall.
  rewrite call_steps in Hcall. cbn [tree_of path_of] in Hcall.
  rewrite Hraw in Hcall.
  destruct (MDSplus.accepts net "alcdata"); [|discriminate].
  destruct (MDSplus.has_tree net "magnetics" shot_number); [|discriminate].
  destruct (MDSplus.evaluate net "magnetics" shot_number (dim_of _));
    [|discriminate].
  injection Hcall as _ <-.
  unfold negative. cbn [sample_of]. rewrite map_map.
  rewrite <- (map_id raw) at 2. apply map_ext. intros x. apply opp_involutive.
Qed.

Lemma toroidal_magnetic_field_sign_round_trip_witness :
  negative [-5.5; 5.25; -0]%float = [5.5; -5.25; 0]%float.
Proof.
  exact (toroidal_magnetic_field_sign_round_trip example_server 1160616018
           [5.5; -5.25; 0]%float [0; 0.5; 1]%float [-5.5; 5.25; -0]%float
           eq_refl eq_refl).
Defined.

(** *** The time window, at its edges *)

Lemma take_where_mismatch (arr : list float) (mask : list bool) :
  length arr <> length mask -> take_where arr mask = Raise IndexError.
Proof.
  revert mask. induction arr as [|x rest IH]; intros [|b bs] Hlen;
    try reflexivity; [contradiction|].
  cbn [take_where]. rewrite IH; [reflexivity|].
  intros Heq. apply Hlen. cbn [length]. rewrite Heq. reflexivity.
Qed.

(** X7. With both bounds given and data and time arrays of different
    lengths, the mask indexing of line 128 raises IndexError and nothing is
    averaged; unless the time array is empty: the empty mask then selects
    nothing and the result is NaN. *)
Theorem mismatched_lengths_raise_unless_no_times (G : gmap string pyobj)
    (data time : list float) (time_start time_end : scalar) :
  length data <> length time ->
  average_plasma_parameter G data time (Some time_start) (Some time_end)
  = match time with
    | [] => Ok (Float64 nan)
    | _ :: _ => Raise IndexError
    end.
Proof.
  intros Hlen. unfold average_plasma_parameter, window_bounds, window_mean.
  cbn [is_None andb mbind result_bind].
  rewrite less_Some, greater_Some. cbn [mbind result_bind].
  rewrite bitwise_and_map. cbn [mbind result_bind].
  destruct time as [|t time]; [reflexivity|].
  unfold getitem_mask. cbn [map].
  rewrite take_where_mismatch; [reflexivity|].
  cbn [length]. rewrite length_map. exact Hlen.
Qed.

Lemma mismatched_lengths_raise_unless_no_times_witness :
  average_plasma_parameter module_globals [1; 2]%float [0; 1; 2]%float
    (Some (PyFloat 0)) (Some (PyFloat 2))
  = Raise IndexError
  /\ average_plasma_parameter module_globals [1; 2]%float []
       (Some (PyFloat 0)) (Some (PyFloat 2))
     = Ok (Float64 nan).
Proof.
  split.
  - apply (mismatched_lengths_raise_unless_no_times module_globals
             [1; 2]%float [0; 1; 2]%float (PyFloat 0) (PyFloat 2)).
    cbn [length]. lia.
  - apply (mismatched_lengths_raise_unless_no_times module_globals
             [1; 2]%float [] (PyFloat 0) (PyFloat 2)).
    cbn [length]. lia.
Defined.

(** X8. The bounds are exclusive: when every sample time equals
    [time_start] or [time_end], nothing is selected and the result is NaN. *)
Theorem samples_on_the_bounds_are_excluded (G : gmap string pyobj)
    (data time : list float) (time_start time_end : scalar) :
  length data = length time ->
  (forall t, In t time -> t = value time_start \/ t = value time_end) ->
  average_plasma_parameter G data time (Some time_start) (Some time_end)
  = Ok (Float64 nan).
Proof.
  intros Hlen Hon. apply empty_window_mean_is_nan; [exact Hlen|].
  intros t Hin. unfold strictly_inside.
  destruct (Hon t Hin) as [-> | ->].
  - rewrite ltb_irrefl. reflexivity.
  - rewrite ltb_irrefl. apply andb_false_r.
Qed.

Lemma samples_on_the_bounds_are_excluded_witness :
  average_plasma_parameter module_globals [1; 2; 3]%float [1; 3; 1]%float
    (Some (PyFloat 1)) (Some (PyFloat 3))
  = Ok (Float64 nan).
Proof.
  apply (samples_on_the_bounds_are_excluded module_globals
           [1; 2; 3]%float [1; 3; 1]%float (PyFloat 1) (PyFloat 3)).
  - reflexivity.
  - cbn [In value]. intros t [<-|[<-|[<-|[]]]]; auto.
Defined.



(** X10. A window that is empty or inverted ([time_end <= time_start])
    selects nothing: the result is NaN, not an error. *)
Theorem inverted_window_gives_nan (G : gmap string pyobj)
    (data time : list float) (time_start time_end : scalar) :
  length data = length time ->
  (value time_end <=? value time_start)%float = true ->
  average_plasma_parameter G data time (Some time_start) (Some time_end)
  = Ok (Float64 nan).
Proof.
  intros Hlen Hinv. apply empty_window_mean_is_nan; [exact Hlen|].
  intros t _. unfold strictly_inside.
  destruct (value time_start <? t)%float eqn:Hlt; [|reflexivity].
  rewrite (ltb_closed_above _ _ _ Hinv Hlt). reflexivity.
Qed.

Lemma inverted_window_gives_nan_witness :
  average_plasma_parameter module_globals
    [1; 2; 3; 4; 5]%float [0; 1; 2; 3; 4]%float
    (Some (PyFloat 3)) (Some (PyFloat 1))
  = Ok (Float64 nan).
Proof.
  exact (inverted_window_gives_nan module_globals
           [1; 2; 3; 4; 5]%float [0; 1; 2; 3; 4]%float (PyFloat 3) (PyFloat 1)
           eq_refl eq_refl).
Defined.

(** X11. Fetch, then average: for a signal whose values and time axis have
    the same length, averaging what an accessor returns over a given window
    is the mean of the fetched values (negated for the toroidal field) whose
    time is strictly inside the window. *)
Theorem fetch_then_average (a : accessor) (net : MDSplus.Server)
    (shot_number : Z) (raw time : list float) (time_start time_end : scalar) :
  MDSplus.accepts net "alcdata" = true ->
  MDSplus.has_tree net (tree_of a) shot_number = true ->
  MDSplus.evaluate net (tree_of a) shot_number (path_of a) = Some raw ->
  MDSplus.evaluate net (tree_of a) shot_number (dim_of (path_of a)) = Some time ->
  length raw = length time ->
  ('(t, d) ← call a module_globals net shot_number;
   average_plasma_parameter module_globals d t (Some time_start) (Some time_end))
  = Ok (mean (samples_inside (map (sample_of a) raw) time
                (value time_start) (value time_end))).
Proof.
  intros Hacc Htree Hraw Htime Hlen.
  rewrite (call_fetched a net shot_number raw time Hacc Htree Hraw Htime).
  cbn [mbind result_bind].
  unfold average_plasma_parameter, window_bounds.
  cbn [is_None andb mbind result_bind].
  apply window_mean_Some. rewrite length_map. exact Hlen.
Qed.

(** X11, on the full server: the line-integrated density 0.5, 0.75, 1.5 at
    times 0, 0.5, 1 averaged over (0.25, 2) is (0.75 + 1.5) / 2. *)
Lemma fetch_then_average_witness :
  ('(t, d) ← call LineIntegratedDensity module_globals full_server 1160616018;
   average_plasma_parameter module_globals d t
     (Some (PyFloat 0.25)) (Some (PyFloat 2)))
  = Ok (Float64 1.125).
Proof.
  exact (fetch_then_average LineIntegratedDensity full_server 1160616018
           [0.5; 0.75; 1.5]%float [0; 0.5; 1]%float (PyFloat 0.25) (PyFloat 2)
           eq_refl eq_refl eq_refl eq_refl eq_refl).
Defined.

(** *** With numpy bound to [np] *)

(** The bounds put in place of two [None]s once [np] is numpy. *)
Lemma window_bounds_default (G : gmap string pyobj) (t0 : float)
    (rest : list float) :
  G !! "np" = Some (PyModule "numpy") ->
  window_bounds G (t0 :: rest) None None
  = Ok (Some (Float64 (fold_left minimum rest t0)),
        Some (Float64 (fold_left maximum rest t0))).
Proof.
  intros Hnp. unfold window_bounds, load_global. rewrite Hnp. reflexivity.
Qed.

Lemma fold_left_constant (f : float -> float -> float) (t0 : float)
    (rest : list float) :
  f t0 t0 = t0 -> Forall (eq t0) rest -> fold_left f rest t0 = t0.
Proof.
  intros Hf Hall. induction Hall as [|t rest <- _ IH]; [reflexivity|].
  cbn [fold_left]. rewrite Hf. exact IH.
Qed.

Lemma minimum_same (t : float) : minimum t t = t.
Proof. unfold minimum. rewrite ltb_irrefl. destruct (is_nan t); reflexivity. Qed.

Lemma maximum_same (t : float) : maximum t t = t.
Proof. unfold maximum. rewrite ltb_irrefl. destruct (is_nan t); reflexivity. Qed.



(** X13. In a namespace where [np] is numpy, leaving both bounds out with an
    empty time array raises ValueError from [np.amin] (there is no minimum),
    whatever the data; the result is not NaN. *)
Theorem default_window_of_no_samples_raises (G : gmap string pyobj)
    (data : list float) :
  G !! "np" = Some (PyModule "numpy") ->
  average_plasma_parameter G data [] None None = Raise ValueError.
Proof.
  intros Hnp. unfold average_plasma_parameter, window_bounds, load_global.
  rewrite Hnp. reflexivity.
Qed.

Lemma default_window_of_no_samples_raises_witness :
  average_plasma_parameter globals_with_numpy [] [] None None = Raise ValueError.
Proof.
  exact (default_window_of_no_samples_raises globals_with_numpy [] eq_refl).
Defined.

(** X14. In a namespace where [np] is numpy, the default window excludes its
    own end points: a signal whose sample times are all the same (a single
    sample in particular) averages to NaN when both bounds are left out. *)
Theorem default_window_of_one_time_gives_nan (G : gmap string pyobj)
    (data : list float) (t0 : float) (rest : list float) :
  G !! "np" = Some (PyModule "numpy") ->
  length data = length (t0 :: rest) ->
  Forall (eq t0) rest ->
  average_plasma_parameter G data (t0 :: rest) None None = Ok (Float64 nan).
Proof.
  intros Hnp Hlen Hall. unfold average_plasma_parameter.
  rewrite (window_bounds_default G t0 rest Hnp).
  rewrite (fold_left_constant minimum t0 rest (minimum_same t0) Hall).
  rewrite (fold_left_constant maximum t0 rest (maximum_same t0) Hall).
  cbn [mbind result_bind].
  rewrite (window_mean_Some _ _ _ _ Hlen). unfold samples_inside.
  rewrite filter_none; [reflexivity|].
  intros [d t] _. unfold strictly_inside. cbn [value snd].
  destruct (t0 <? t)%float eqn:Hlt; [|reflexivity].
  destruct (t <? t0)%float eqn:Hgt; [|reflexivity].
  destruct (is_nan t0) eqn:Hn.
  - rewrite (ltb_nan_l _ _ Hn) in Hlt. discriminate Hlt.
  - exfalso. assert (Hle : (t0 <=? t0)%float = true).
    { rewrite FloatAxioms.leb_spec. unfold SpecFloat.SFleb.
      rewrite SFcompare_refl; [reflexivity|].
      intros Hs. unfold is_nan in Hn.
      rewrite FloatAxioms.eqb_spec, Hs in Hn. discriminate Hn. }
    rewrite (ltb_closed_above _ _ _ Hle Hlt) in Hgt. discriminate Hgt.
Qed.

Lemma default_window_of_one_time_gives_nan_witness :
  average_plasma_parameter globals_with_numpy [7; 8]%float [2; 2]%float None None
  = Ok (Float64 nan).
Proof.
  apply (default_window_of_one_time_gives_nan globals_with_numpy
           [7; 8]%float 2%float [2]%float eq_refl eq_refl).
  repeat constructor.
Defined.

(** *** A window around every sample *)

Lemma samples_inside_all (data time : list float) (ts te : float) :
  length data = length time ->
  (forall t, In t time -> strictly_inside ts te t = true) ->
  samples_inside data time ts te = data.
Proof.
  unfold samples_inside. revert time.
  induction data as [|d data IH]; intros [|t time] Hlen Hall;
    try discriminate Hlen; [reflexivity|].
  injection Hlen as Hlen. cbn [combine List.filter snd].
  rewrite (Hall t (or_introl eq_refl)). cbn [map fst]. f_equal.
  apply IH; [exact Hlen|]. intros t' Hin. apply Hall. right. exact Hin.
Qed.

(** X15. A window that has every sample time strictly inside it averages
    the whole signal: the result is the sum of all the data over their
    count. *)
Theorem window_around_all_samples (G : gmap string pyobj)
    (data time : list float) (time_start time_end : scalar) :
  length data = length time ->
  (forall t, In t time ->
             (value time_start <? t)%float = true
             /\ (t <? value time_end)%float = true) ->
  average_plasma_parameter G data time (Some time_start) (Some time_end)
  = Ok (Float64 (sum data / count data)).
Proof.
  intros Hlen Hall. unfold average_plasma_parameter, window_bounds.
  cbn [is_None andb mbind result_bind].
  rewrite (window_mean_Some _ _ _ _ Hlen).
  rewrite samples_inside_all; [reflexivity | exact Hlen |].
  intros t Hin. unfold strictly_inside.
  destruct (Hall t Hin) as [-> ->]. reflexivity.
Qed.

Lemma window_around_all_samples_witness :
  average_plasma_parameter module_globals [1; 2; 6]%float [0; 1; 2]%float
    (Some (PyFloat (-1))) (Some (PyFloat 3))
  = Ok (Float64 3)
  /\ average_plasma_parameter module_globals
       [0.1; 0.1; 0.1; 0.1; 0.1; 0.1; 0.1; 0.1]%float
       [0; 1; 2; 3; 4; 5; 6; 7]%float
       (Some (PyFloat (-1))) (Some (PyFloat 8))
     = Ok (Float64 0.1).
Proof.
  split.
  - apply (window_around_all_samples module_globals
             [1; 2; 6]%float [0; 1; 2]%float (PyFloat (-1)) (PyFloat 3)).
    + reflexivity.
    + cbn [In value]. intros t [<-|[<-|[<-|[]]]]; split; reflexivity.
  - apply (window_around_all_samples module_globals
             [0.1; 0.1; 0.1; 0.1; 0.1; 0.1; 0.1; 0.1]%float
             [0; 1; 2; 3; 4; 5; 6; 7]%float (PyFloat (-1)) (PyFloat 8)).
    + reflexivity.
    + cbn [In value].
      intros t [<-|[<-|[<-|[<-|[<-|[<-|[<-|[<-|[]]]]]]]]]; split; reflexivity.
Defined.
